(** * Bookstore API: the in-memory record store and its contract

    A shallow embedding of [app/models.py] and [app/database.py] (the
    pydantic models and [BookDatabase]), of the route handlers of
    [app/routes.py] with the exception handler of [app/main.py], and of
    the list-backed entry point [main.py], followed by their properties.

    Conventions.
    - A Python [int] is a [Z]; a Python [float] is a primitive binary64
      float; a [str] is a [string] (one character per code point).
    - [Optional[T]] is [option T]; Python's [None] is Rocq's [None].
    - A [dict] is an association list without repeated keys, in insertion
      order, as CPython keeps it: [list(d.values())] is the list of the
      second components.
    - A method of [BookDatabase] takes the object's state and returns the
      new state together with its result. *)

From Stdlib Require Import ZArith List String Bool Lia PrimFloat Sorted.
From Stdlib Require Import DecimalString.
Import ListNotations.
Open Scope Z_scope.

Set Implicit Arguments.
Set Warnings "-inexact-float".

(** ** Exceptions *)

Inductive exn : Type :=
| ValidationError.

Inductive result (A : Type) : Type :=
| Ok (a : A)
| Raise (e : exn).

Arguments Ok {A} a.
Arguments Raise {A} e.

(** ** Insertion-ordered dictionaries keyed by [int] *)

Section Dict.
Variable V : Type.

Definition dict := list (Z * V).

(** [d.get(k)] *)
Fixpoint dict_get (k : Z) (d : dict) : option V :=
  match d with
  | [] => None
  | (k', v) :: r => if k =? k' then Some v else dict_get k r
  end.

(** [k in d] *)
Fixpoint dict_contains (k : Z) (d : dict) : bool :=
  match d with
  | [] => false
  | (k', _) :: r => if k =? k' then true else dict_contains k r
  end.

(** [d[k] = v]: an existing key keeps its position, a new key goes last. *)
Fixpoint dict_set (k : Z) (v : V) (d : dict) : dict :=
  match d with
  | [] => [(k, v)]
  | (k', v') :: r =>
      if k =? k' then (k, v) :: r else (k', v') :: dict_set k v r
  end.

(** [del d[k]] (the caller has checked [k in d]). *)
Fixpoint dict_del (k : Z) (d : dict) : dict :=
  match d with
  | [] => []
  | (k', v') :: r => if k =? k' then r else (k', v') :: dict_del k r
  end.

(** [d.keys()], [d.values()], [len(d)] *)
Definition dict_keys (d : dict) : list Z := map fst d.
Definition dict_values (d : dict) : list V := map snd d.
Definition dict_len (d : dict) : Z := Z.of_nat (List.length d).

(** The representation invariant of a dictionary: no key occurs twice. *)
Definition dict_wf (d : dict) : Prop := NoDup (dict_keys d).
End Dict.

(** ** [app/models.py] *)

(** [Field(min_length=lo, max_length=hi)] on a [str]. *)
Definition length_ok (lo hi : nat) (s : string) : bool :=
  (lo <=? String.length s)%nat && (String.length s <=? hi)%nat.

(** [Field(gt=0)] on a [float]: [v > 0], false on NaN. *)
Definition gt_zero (v : float) : bool := PrimFloat.ltb 0%float v.

Definition title_ok (s : string) : bool := length_ok 1 200 s.
Definition author_ok (s : string) : bool := length_ok 1 100 s.

(** [BookCreate(BookBase)]: what a caller sends, no [id]. *)
Module BookCreate.
Record t : Type := Build {
  title : string;
  author : string;
  price : float;
  available : bool
}.

(** The constraints of [BookBase], checked when the model is built. *)
Definition valid (b : t) : bool :=
  title_ok (title b) && author_ok (author b) && gt_zero (price b).
End BookCreate.

(** The names of the fields of [BookBase] and [BookUpdate]. *)
Inductive FieldName : Type :=
| f_title
| f_author
| f_price
| f_available.

Definition FieldName_eqb (a b : FieldName) : bool :=
  match a, b with
  | f_title, f_title
  | f_author, f_author
  | f_price, f_price
  | f_available, f_available => true
  | _, _ => false
  end.

(** The result of [model_dump(exclude_unset=True)] on a [BookUpdate]: a
    dictionary with a key for each field that was set. The outer [option]
    says whether the key is there, the inner one is the field's
    [Optional] value. *)
Module UpdateData.
Record t : Type := Build {
  title : option (option string);
  author : option (option string);
  price : option (option float);
  available : option (option bool)
}.
End UpdateData.

(** [BookUpdate(BaseModel)]: every field is [Optional] with default
    [None]; [model_fields_set] holds the names of the fields the caller
    gave, whatever their value. *)
Module BookUpdate.
Record t : Type := Build {
  title : option string;
  author : option string;
  price : option float;
  available : option bool;
  model_fields_set : list FieldName
}.

Definition is_set (f : FieldName) (u : t) : bool :=
  existsb (FieldName_eqb f) (model_fields_set u).

(** The constraints apply to a value that is not [None]. *)
Definition opt_ok {A : Type} (ok : A -> bool) (o : option A) : bool :=
  match o with
  | None => true
  | Some v => ok v
  end.

Definition valid (u : t) : bool :=
  opt_ok title_ok (title u) && opt_ok author_ok (author u)
  && opt_ok gt_zero (price u).

Definition dump_field {A : Type} (f : FieldName) (u : t) (v : option A)
  : option (option A) :=
  if is_set f u then Some v else None.

(** [book_data.model_dump(exclude_unset=True)] *)
Definition model_dump_exclude_unset (u : t) : UpdateData.t :=
  {| UpdateData.title := dump_field f_title u (title u);
     UpdateData.author := dump_field f_author u (author u);
     UpdateData.price := dump_field f_price u (price u);
     UpdateData.available := dump_field f_available u (available u) |}.
End BookUpdate.

(** [Book(BookBase)]: a stored record. The fields are declared [str],
    [float] and [bool], and [Book(...)] checks them; [model_copy] does
    not, so a field of a copy holds whatever the update gave, [None]
    included. *)
Module Book.
Record t : Type := Build {
  id : Z;
  title : option string;
  author : option string;
  price : option float;
  available : option bool
}.

(** [Book(id=book_id, **book_data.model_dump())]: runs the validators
    of [BookBase] on the dumped fields. *)
Definition new (book_id : Z) (d : BookCreate.t) : result t :=
  if BookCreate.valid d then
    Ok {| id := book_id;
          title := Some (BookCreate.title d);
          author := Some (BookCreate.author d);
          price := Some (BookCreate.price d);
          available := Some (BookCreate.available d) |}
  else Raise ValidationError.

Definition copy_field {A : Type} (old : option A) (upd : option (option A))
  : option A :=
  match upd with
  | None => old
  | Some v => v
  end.

(** [book.model_copy(update=update_data)]: a copy whose fields named in
    [update_data] take its values, unvalidated. *)
Definition model_copy (book : t) (update : UpdateData.t) : t :=
  {| id := id book;
     title := copy_field (title book) (UpdateData.title update);
     author := copy_field (author book) (UpdateData.author update);
     price := copy_field (price book) (UpdateData.price update);
     available :=
       copy_field (available book) (UpdateData.available update) |}.

(** The field constraints of the data model: what [BookBase] declares. *)
Definition field_constraints (b : t) : bool :=
  match title b, author b, price b, available b with
  | Some s, Some a, Some p, Some _ => title_ok s && author_ok a && gt_zero p
  | _, _, _, _ => false
  end.
End Book.

(** ** [app/database.py] *)

(** The state of a [BookDatabase]: the mapping [_books] and the counter
    [_next_id]. *)
Record BookDatabase : Type := {
  _books : dict Book.t;
  _next_id : Z
}.

(** [BookDatabase.__init__] *)
Definition __init__ : BookDatabase :=
  {| _books := []; _next_id := 1 |}.

(** [_generate_id]: the counter's value; the counter goes up by one. *)
Definition _generate_id (self : BookDatabase) : BookDatabase * Z :=
  let current_id := _next_id self in
  ({| _books := _books self; _next_id := _next_id self + 1 |}, current_id).

(** [create]: the id is taken first, then [Book(...)] is built (a
    [ValidationError] leaves the counter advanced and the mapping as it
    was), then the book is filed under its id and returned. *)
Definition create (self : BookDatabase) (book_data : BookCreate.t)
  : BookDatabase * result Book.t :=
  let (self1, book_id) := _generate_id self in
  match Book.new book_id book_data with
  | Raise e => (self1, Raise e)
  | Ok book =>
      ({| _books := dict_set book_id book (_books self1);
          _next_id := _next_id self1 |}, Ok book)
  end.

(** [get_all]: [list(self._books.values())] *)
Definition get_all (self : BookDatabase) : list Book.t :=
  dict_values (_books self).

(** [get_by_id]: [self._books.get(book_id)] *)
Definition get_by_id (self : BookDatabase) (book_id : Z) : option Book.t :=
  dict_get book_id (_books self).

(** [update]: [None] when the id is not there (a [Book] is never falsy);
    else the copy with the set fields replaced is stored and returned. *)
Definition update (self : BookDatabase) (book_id : Z)
    (book_data : BookUpdate.t) : BookDatabase * option Book.t :=
  match dict_get book_id (_books self) with
  | None => (self, None)
  | Some book =>
      let update_data := BookUpdate.model_dump_exclude_unset book_data in
      let updated_book := Book.model_copy book update_data in
      ({| _books := dict_set book_id updated_book (_books self);
          _next_id := _next_id self |}, Some updated_book)
  end.

(** [delete]: removes the key when it is there and says whether it was. *)
Definition delete (self : BookDatabase) (book_id : Z)
  : BookDatabase * bool :=
  if dict_contains book_id (_books self) then
    ({| _books := dict_del book_id (_books self);
        _next_id := _next_id self |}, true)
  else (self, false).

(** [exists] ([exists] is a keyword here): [book_id in self._books] *)
Definition exists_ (self : BookDatabase) (book_id : Z) : bool :=
  dict_contains book_id (_books self).

(** [count]: [len(self._books)] *)
Definition count (self : BookDatabase) : Z :=
  dict_len (_books self).

(** ** Sequences of store operations *)

(** A call of a public method of the store, with its arguments. *)
Inductive Op : Type :=
| Create (book_data : BookCreate.t)
| GetAll
| GetById (book_id : Z)
| Update (book_id : Z) (book_data : BookUpdate.t)
| Delete (book_id : Z)
| Exists (book_id : Z)
| Count.

(** What the call gave back. *)
Inductive Ret : Type :=
| RCreate (r : result Book.t)
| RGetAll (l : list Book.t)
| RGetById (o : option Book.t)
| RUpdate (o : option Book.t)
| RDelete (b : bool)
| RExists (b : bool)
| RCount (n : Z).

Definition call (self : BookDatabase) (op : Op) : BookDatabase * Ret :=
  match op with
  | Create book_data =>
      let (self', r) := create self book_data in (self', RCreate r)
  | GetAll => (self, RGetAll (get_all self))
  | GetById book_id => (self, RGetById (get_by_id self book_id))
  | Update book_id book_data =>
      let (self', r) := update self book_id book_data in (self', RUpdate r)
  | Delete book_id =>
      let (self', r) := delete self book_id in (self', RDelete r)
  | Exists book_id => (self, RExists (exists_ self book_id))
  | Count => (self, RCount (count self))
  end.

(** The calls of [ops] one after the other, from the state [self]. *)
Fixpoint run (self : BookDatabase) (ops : list Op)
  : BookDatabase * list Ret :=
  match ops with
  | [] => (self, [])
  | op :: rest =>
      let (self1, r) := call self op in
      let (self2, rs) := run self1 rest in
      (self2, r :: rs)
  end.

Definition state_after (self : BookDatabase) (ops : list Op) : BookDatabase :=
  fst (run self ops).

Definition returns (self : BookDatabase) (ops : list Op) : list Ret :=
  snd (run self ops).

(** The results of the [create] calls of a run, in call order. *)
Fixpoint create_results (rets : list Ret) : list (result Book.t) :=
  match rets with
  | [] => []
  | RCreate r :: rest => r :: create_results rest
  | _ :: rest => create_results rest
  end.

(** The ids of the records that the [create] calls returned. *)
Fixpoint returned_ids (rs : list (result Book.t)) : list Z :=
  match rs with
  | [] => []
  | Ok b :: rest => Book.id b :: returned_ids rest
  | Raise _ :: rest => returned_ids rest
  end.

Definition created_ids (rets : list Ret) : list Z :=
  returned_ids (create_results rets).

(** The inputs of a call pass the validation of the request handlers:
    the body of a create is a valid [BookCreate], the body of an update a
    valid [BookUpdate]. *)
Definition op_valid (op : Op) : bool :=
  match op with
  | Create book_data => BookCreate.valid book_data
  | Update _ book_data => BookUpdate.valid book_data
  | _ => true
  end.

(** The states the store goes through from [BookDatabase()]. *)
Definition reachable (self : BookDatabase) : Prop :=
  exists ops : list Op, self = state_after __init__ ops.

(** The invariant of the store: its mapping is a dictionary, a record is
    filed under its own id, and the ids in use are below the counter. *)
Definition store_inv (self : BookDatabase) : Prop :=
  dict_wf (_books self)
  /\ Forall (fun kv => Book.id (snd kv) = fst kv /\ fst kv < _next_id self)
       (_books self).

(** A patch that sets no field to [None]. *)
Definition no_explicit_null (u : BookUpdate.t) : bool :=
  let given {A : Type} (f : FieldName) (v : option A) : bool :=
    negb (BookUpdate.is_set f u)
    || match v with Some _ => true | None => false end in
  given f_title (BookUpdate.title u) && given f_author (BookUpdate.author u)
  && given f_price (BookUpdate.price u)
  && given f_available (BookUpdate.available u).

Definition op_no_explicit_null (op : Op) : bool :=
  match op with
  | Update _ book_data => no_explicit_null book_data
  | _ => true
  end.

(** ** What a route handler answers *)

(** [HTTPException(status_code=..., detail=...)] *)
Module HTTPException.
Record t : Type := Build {
  status_code : Z;
  detail : string
}.
End HTTPException.

(** A handler returns a value or raises: an [HTTPException] of its own,
    or an exception that came up from the store. *)
Inductive answer (A : Type) : Type :=
| Return (a : A)
| RaiseHTTP (e : HTTPException.t)
| RaiseError (e : exn).

Arguments Return {A} a.
Arguments RaiseHTTP {A} e.
Arguments RaiseError {A} e.

(** [str(n)] for an [int]: its decimal digits, with [-] when negative. *)
Definition str_int (n : Z) : string := NilZero.string_of_int (Z.to_int n).

(** ** [main.py]: the list-backed entry point *)

Module Legacy.
(** [class Book(BaseModel)] of [main.py]: the caller sends the [id]. *)
Record Book : Type := BuildBook {
  id : Z;
  title : string;
  author : string;
  price : float;
  available : bool
}.

(** [books: List[Book] = []] *)
Definition books_init : list Book := [].

(** [get_books] *)
Definition get_books (books : list Book) : list Book := books.

(** [get_book]: the first book with that id, [None] for the 404. *)
Fixpoint get_book (books : list Book) (book_id : Z) : option Book :=
  match books with
  | [] => None
  | book :: rest =>
      if id book =? book_id then Some book else get_book rest book_id
  end.

(** [add_book]: [books.append(book)]; the answer carries the book. *)
Definition add_book (books : list Book) (book : Book) : list Book * Book :=
  (books ++ [book], book).

(** [HTTPException(status_code=404, detail="Book not found")] *)
Definition book_not_found : HTTPException.t :=
  HTTPException.Build 404 "Book not found".

(** [update_book]: the loop over [enumerate(books)] puts the body at the
    index of the first book with that id and returns; the 404 is raised
    when the loop ends. The answer carries the book. *)
Fixpoint update_book (books : list Book) (book_id : Z) (updated_book : Book)
  : list Book * answer Book :=
  match books with
  | [] => ([], RaiseHTTP book_not_found)
  | book :: rest =>
      if id book =? book_id then (updated_book :: rest, Return updated_book)
      else
        let (rest', r) := update_book rest book_id updated_book in
        (book :: rest', r)
  end.

(** [delete_book]: [books.remove(book)] for the first book with that id.
    [remove] takes out the first element equal to [book]; an element
    equal to [book] has its id, so that element is [book] itself, the
    first with that id. The answer is a constant message. *)
Fixpoint delete_book (books : list Book) (book_id : Z)
  : list Book * answer unit :=
  match books with
  | [] => ([], RaiseHTTP book_not_found)
  | book :: rest =>
      if id book =? book_id then (rest, Return tt)
      else
        let (rest', r) := delete_book rest book_id in
        (book :: rest', r)
  end.
End Legacy.

(** ** [app/routes.py] *)

Module Routes.
(** [HTTPException(status_code=status.HTTP_404_NOT_FOUND,
    detail=f"Book with id {book_id} not found")] *)
Definition not_found (book_id : Z) : HTTPException.t :=
  HTTPException.Build 404
    ("Book with id " ++ str_int book_id ++ " not found").

(** [create_book]: [db.create(book)], returned as it is. *)
Definition create_book (db : BookDatabase) (book : BookCreate.t)
  : BookDatabase * answer Book.t :=
  let (db', new_book) := create db book in
  match new_book with
  | Ok b => (db', Return b)
  | Raise e => (db', RaiseError e)
  end.

(** [get_books]: [db.get_all()] *)
Definition get_books (db : BookDatabase)
  : BookDatabase * answer (list Book.t) :=
  (db, Return (get_all db)).

(** [get_book]: the 404 when [db.get_by_id] gives [None]. *)
Definition get_book (db : BookDatabase) (book_id : Z)
  : BookDatabase * answer Book.t :=
  match get_by_id db book_id with
  | None => (db, RaiseHTTP (not_found book_id))
  | Some book => (db, Return book)
  end.

(** [update_book]: the 404 when [db.update] gives [None]. *)
Definition update_book (db : BookDatabase) (book_id : Z)
    (book : BookUpdate.t) : BookDatabase * answer Book.t :=
  let (db', updated_book) := update db book_id book in
  match updated_book with
  | None => (db', RaiseHTTP (not_found book_id))
  | Some b => (db', Return b)
  end.

(** [delete_book]: the 404 when [db.delete] gives [False], else [None]. *)
Definition delete_book (db : BookDatabase) (book_id : Z)
  : BookDatabase * answer unit :=
  let (db', success) := delete db book_id in
  if success then (db', Return tt)
  else (db', RaiseHTTP (not_found book_id)).
End Routes.

(** ** [app/main.py]: the handler of HTTP exceptions *)

(** [JSONResponse(status_code=..., content={"detail": ...})] *)
Module JSONResponse.
Record t : Type := Build {
  status_code : Z;
  content_detail : string
}.
End JSONResponse.

(** [http_exception_handler] *)
Definition http_exception_handler (exc : HTTPException.t) : JSONResponse.t :=
  {| JSONResponse.status_code := HTTPException.status_code exc;
     JSONResponse.content_detail := HTTPException.detail exc |}.

(** ** Counting over a run *)

(** The number of [delete] calls of a run that returned [True]. *)
Fixpoint deleted_count (rets : list Ret) : Z :=
  match rets with
  | [] => 0
  | RDelete true :: rest => 1 + deleted_count rest
  | _ :: rest => deleted_count rest
  end.

(** The number of [create] calls of a run that returned a record. *)
Definition created_count (rets : list Ret) : Z :=
  Z.of_nat (List.length (created_ids rets)).

(** ** Sample data *)

Definition dune : BookCreate.t :=
  BookCreate.Build "Dune" "Frank Herbert" 15.0 true.

(** The store after one create. *)
Definition one_book : BookDatabase := fst (create __init__ dune).

(** The body [{"price": 19.99}]. *)
Definition price_patch : BookUpdate.t :=
  BookUpdate.Build None None (Some 19.99%float) None [f_price].

(** The body [{"title": null}]. *)
Definition null_title_patch : BookUpdate.t :=
  BookUpdate.Build None None None None [f_title].

(** The body [{}]. *)
Definition empty_patch : BookUpdate.t :=
  BookUpdate.Build None None None None [].

(** The patch that sets all four fields to those of a create body. *)
Definition full_patch (b : BookCreate.t) : BookUpdate.t :=
  BookUpdate.Build (Some (BookCreate.title b)) (Some (BookCreate.author b))
    (Some (BookCreate.price b)) (Some (BookCreate.available b))
    [f_title; f_author; f_price; f_available].

(** A body with an empty title, which [BookBase] refuses. *)
Definition untitled : BookCreate.t :=
  BookCreate.Build "" "Frank Herbert" 15.0 true.

(** Two books of the list-backed entry point with the same id. *)
Definition legacy_dune : Legacy.Book :=
  Legacy.BuildBook 1 "Dune" "Frank Herbert" 15.0 true.

Definition legacy_emma : Legacy.Book :=
  Legacy.BuildBook 1 "Emma" "Jane Austen" 9.5 true.

(** * Properties *)

(** The scenario of the specification. *)
Example scenario :
  let clean := BookCreate.Build "Clean Code" "Robert C. Martin" 29.99 true in
  let dune := BookCreate.Build "Dune" "Frank Herbert" 15.0 true in
  let patch := BookUpdate.Build None None (Some 19.99%float) None [f_price] in
  let (db1, r1) := create __init__ clean in
  let (db2, r2) := create db1 dune in
  let (db3, r3) := update db2 1 patch in
  let (db4, r4) := delete db3 2 in
  r1 = Ok (Book.Build 1 (Some "Clean Code"%string)
             (Some "Robert C. Martin"%string) (Some 29.99%float) (Some true))
  /\ option_map Book.id (match r2 with Ok b => Some b | Raise _ => None end)
     = Some 2
  /\ r3 = Some (Book.Build 1 (Some "Clean Code"%string)
             (Some "Robert C. Martin"%string) (Some 19.99%float) (Some true))
  /\ r4 = true
  /\ get_by_id db4 2 = None
  /\ get_by_id db4 1 = r3.
Proof. vm_compute. repeat split. Qed.

(** ** Dictionaries *)

Section DictFacts.
Variable V : Type.
Implicit Types (d : dict V) (k : Z) (v : V).

Lemma dict_contains_get k d :
  dict_contains k d =
  match dict_get k d with Some _ => true | None => false end.
Proof.
  induction d as [|[k' v'] r IH]; simpl; [reflexivity|].
  destruct (k =? k'); [reflexivity | exact IH].
Qed.

Lemma dict_contains_true_iff k d :
  dict_contains k d = true <-> In k (dict_keys d).
Proof.
  induction d as [|[k' v'] r IH]; simpl.
  - split; [discriminate | tauto].
  - destruct (Z.eqb_spec k k') as [->|Hne].
    + split; auto.
    + rewrite IH. split; [auto | intros [Heq|Hin]; [congruence | exact Hin]].
Qed.

Lemma dict_contains_false_iff k d :
  dict_contains k d = false <-> ~ In k (dict_keys d).
Proof.
  rewrite <- dict_contains_true_iff.
  destruct (dict_contains k d); split; intros H; congruence || (exfalso; auto).
Qed.

Lemma dict_get_set_same k v d : dict_get k (dict_set k v d) = Some v.
Proof.
  induction d as [|[k' v'] r IH]; simpl.
  - now rewrite Z.eqb_refl.
  - destruct (Z.eqb_spec k k') as [->|Hne]; simpl.
    + now rewrite Z.eqb_refl.
    + destruct (Z.eqb_spec k k'); [contradiction | exact IH].
Qed.

Lemma dict_get_set_other k k' v d :
  k' <> k -> dict_get k' (dict_set k v d) = dict_get k' d.
Proof.
  intros Hne. induction d as [|[k0 v0] r IH]; simpl.
  - destruct (Z.eqb_spec k' k); [contradiction | reflexivity].
  - destruct (Z.eqb_spec k k0) as [->|Hk]; simpl.
    + destruct (Z.eqb_spec k' k0); [contradiction | reflexivity].
    + destruct (k' =? k0); [reflexivity | exact IH].
Qed.

Lemma dict_len_set_present k v d :
  dict_contains k d = true -> dict_len (dict_set k v d) = dict_len d.
Proof.
  unfold dict_len.
  induction d as [|[k' v'] r IH]; cbn [dict_contains dict_set];
    [discriminate|].
  destruct (k =? k'); cbn [List.length]; rewrite ?Nat2Z.inj_succ;
    [reflexivity|].
  intros H. apply IH in H. lia.
Qed.

Lemma dict_keys_set_present k v d :
  dict_contains k d = true -> dict_keys (dict_set k v d) = dict_keys d.
Proof.
  induction d as [|[k' v'] r IH]; simpl; [discriminate|].
  destruct (Z.eqb_spec k k') as [->|Hne]; simpl; [reflexivity|].
  intros H. now rewrite (IH H).
Qed.

Lemma dict_keys_set_absent k v d :
  dict_contains k d = false -> dict_keys (dict_set k v d) = dict_keys d ++ [k].
Proof.
  induction d as [|[k' v'] r IH]; simpl; [reflexivity|].
  destruct (k =? k'); simpl; [discriminate|].
  intros H. now rewrite (IH H).
Qed.

Lemma dict_del_absent k d : dict_contains k d = false -> dict_del k d = d.
Proof.
  induction d as [|[k' v'] r IH]; simpl; [reflexivity|].
  destruct (k =? k'); [discriminate|].
  intros H. now rewrite (IH H).
Qed.

Lemma dict_len_del k d :
  dict_contains k d = true -> dict_len (dict_del k d) = dict_len d - 1.
Proof.
  unfold dict_len.
  induction d as [|[k' v'] r IH]; cbn [dict_contains dict_del];
    [discriminate|].
  destruct (k =? k'); cbn [List.length]; rewrite ?Nat2Z.inj_succ.
  - intros _. lia.
  - intros H. apply IH in H. lia.
Qed.

Lemma dict_keys_del_incl k k' d :
  In k' (dict_keys (dict_del k d)) -> In k' (dict_keys d).
Proof.
  induction d as [|[k0 v0] r IH]; simpl; [tauto|].
  destruct (k =? k0); simpl; [auto|].
  intros [H|H]; auto.
Qed.

Lemma dict_wf_del k d : dict_wf d -> dict_wf (dict_del k d).
Proof.
  unfold dict_wf. induction d as [|[k0 v0] r IH]; simpl; [auto|].
  intros Hnd. inversion Hnd as [|? ? Hnotin Hr]; subst.
  destruct (k =? k0); simpl; [exact Hr|].
  constructor; [|auto].
  intros Hin. apply Hnotin. eapply dict_keys_del_incl; eauto.
Qed.

Lemma dict_contains_del k d :
  dict_wf d -> dict_contains k (dict_del k d) = false.
Proof.
  unfold dict_wf. induction d as [|[k0 v0] r IH]; simpl; [reflexivity|].
  intros Hnd. inversion Hnd as [|? ? Hnotin Hr]; subst.
  destruct (Z.eqb_spec k k0) as [->|Hne]; simpl.
  - now apply dict_contains_false_iff.
  - destruct (Z.eqb_spec k k0); [contradiction | auto].
Qed.

Lemma dict_wf_set k v d : dict_wf d -> dict_wf (dict_set k v d).
Proof.
  intros Hwf. unfold dict_wf.
  destruct (dict_contains k d) eqn:Hc.
  - now rewrite dict_keys_set_present.
  - rewrite dict_keys_set_absent by assumption.
    apply dict_contains_false_iff in Hc.
    apply NoDup_app; [exact Hwf | repeat constructor; simpl; tauto |].
    intros a Ha [<-|[]]. contradiction.
Qed.

Lemma dict_values_len d : Z.of_nat (List.length (dict_values d)) = dict_len d.
Proof. unfold dict_values, dict_len. now rewrite length_map. Qed.
End DictFacts.

(** ** The store: single calls *)

(** C10: in every state of the store, [exists(id)] is true exactly when
    [get_by_id(id)] returns a record, and [count()] is the number of
    records that [get_all()] returns. *)
Theorem exists_count_agree_with_reads :
  forall (self : BookDatabase) (book_id : Z),
    (exists_ self book_id = true <->
       exists book, get_by_id self book_id = Some book)
    /\ count self = Z.of_nat (List.length (get_all self)).
Proof.
  intros self book_id. unfold exists_, get_by_id, count, get_all. split.
  - rewrite dict_contains_get.
    destruct (dict_get book_id (_books self)) as [b|].
    + split; [intros _; now exists b | reflexivity].
    + split; [discriminate | intros [b Hb]; discriminate].
  - now rewrite dict_values_len.
Qed.

(** C6: on an id with no live record, [get_by_id], [update] and [delete]
    answer [None], [None] and [False] as ordinary results, and the state
    of the store (its mapping, its counter, hence [count()]) is the one
    before the call. *)
Theorem not_found_is_reported_without_mutation :
  forall (self : BookDatabase) (book_id : Z) (book_data : BookUpdate.t),
    exists_ self book_id = false ->
    get_by_id self book_id = None
    /\ update self book_id book_data = (self, None)
    /\ delete self book_id = (self, false)
    /\ count (fst (update self book_id book_data)) = count self
    /\ count (fst (delete self book_id)) = count self.
Proof.
  intros self book_id book_data Hno.
  unfold exists_ in Hno.
  assert (Hget : dict_get book_id (_books self) = None).
  { rewrite dict_contains_get in Hno.
    destruct (dict_get book_id (_books self)); [discriminate | reflexivity]. }
  assert (Hupd : update self book_id book_data = (self, None))
    by (unfold update; now rewrite Hget).
  assert (Hdel : delete self book_id = (self, false))
    by (unfold delete; now rewrite Hno).
  rewrite Hupd, Hdel. repeat split; assumption.
Qed.

(** C5: for a valid input and any state, [create] returns a record, and
    [get_by_id] on the id of that record, right after, returns the same
    record. *)
Theorem create_then_get_by_id :
  forall (self : BookDatabase) (book_data : BookCreate.t),
    BookCreate.valid book_data = true ->
    exists r : Book.t,
      snd (create self book_data) = Ok r
      /\ get_by_id (fst (create self book_data)) (Book.id r) = Some r.
Proof.
  intros self book_data Hvalid.
  unfold create, _generate_id, Book.new. rewrite Hvalid. cbn.
  eexists. split; [reflexivity|].
  unfold get_by_id. cbn. apply dict_get_set_same.
Qed.

(** C7: when the store holds a record with that id, [delete(id)] returns
    [True], [get_by_id(id)] then answers [None] and [count()] is one
    less; a second [delete(id)] returns [False] and leaves the state, and
    so [count()], as it was. The mapping is a dictionary ([dict_wf]: no
    key twice), as every Python [dict] is. *)
Theorem delete_removes_exactly_one :
  forall (self : BookDatabase) (book_id : Z),
    dict_wf (_books self) ->
    exists_ self book_id = true ->
    let self' := fst (delete self book_id) in
    snd (delete self book_id) = true
    /\ get_by_id self' book_id = None
    /\ count self' = count self - 1
    /\ delete self' book_id = (self', false)
    /\ count (fst (delete self' book_id)) = count self'.
Proof.
  intros self book_id Hwf Hin self'.
  unfold exists_ in Hin.
  assert (Hgone : dict_contains book_id (_books self') = false).
  { subst self'. unfold delete. rewrite Hin. cbn.
    now apply dict_contains_del. }
  assert (Hdel2 : delete self' book_id = (self', false))
    by (unfold delete; now rewrite Hgone).
  repeat split.
  - unfold delete. now rewrite Hin.
  - unfold get_by_id. rewrite dict_contains_get in Hgone.
    destruct (dict_get book_id (_books self')); [discriminate | reflexivity].
  - subst self'. unfold delete, count. rewrite Hin. cbn.
    now apply dict_len_del.
  - exact Hdel2.
  - now rewrite Hdel2.
Qed.

(** C2: for a stored record with that id and any patch, [update] returns
    and stores a record in which a field that the patch did not set has
    its prior value and a field that the patch set, [None] included, has
    the patch's value; the [id] of the record, the other records and the
    counter are as before. *)
Theorem update_replaces_exactly_the_set_fields :
  forall (self : BookDatabase) (book_id : Z) (book : Book.t)
         (patch : BookUpdate.t),
    get_by_id self book_id = Some book ->
    exists book' : Book.t,
      snd (update self book_id patch) = Some book'
      /\ get_by_id (fst (update self book_id patch)) book_id = Some book'
      /\ Book.id book' = Book.id book
      /\ Book.title book' =
           (if BookUpdate.is_set f_title patch
            then BookUpdate.title patch else Book.title book)
      /\ Book.author book' =
           (if BookUpdate.is_set f_author patch
            then BookUpdate.author patch else Book.author book)
      /\ Book.price book' =
           (if BookUpdate.is_set f_price patch
            then BookUpdate.price patch else Book.price book)
      /\ Book.available book' =
           (if BookUpdate.is_set f_available patch
            then BookUpdate.available patch else Book.available book)
      /\ (forall other : Z, other <> book_id ->
            get_by_id (fst (update self book_id patch)) other
            = get_by_id self other)
      /\ _next_id (fst (update self book_id patch)) = _next_id self.
Proof.
  intros self book_id book patch Hget.
  unfold get_by_id in Hget. unfold update. rewrite Hget. cbn.
  eexists. split; [reflexivity|].
  unfold get_by_id. cbn.
  repeat split;
    try (unfold BookUpdate.dump_field;
         match goal with
         | |- context [BookUpdate.is_set ?f patch] =>
             now destruct (BookUpdate.is_set f patch)
         end).
  - apply dict_get_set_same.
  - intros other Hne. now apply dict_get_set_other.
Qed.

(** ** More on dictionaries: membership, position, removal *)

Section DictOrder.
Variable V : Type.
Implicit Types (d : dict V) (k : Z) (v : V).

Lemma dict_get_In k v d : dict_get k d = Some v -> In (k, v) d.
Proof.
  induction d as [|[k' v'] r IH]; simpl; [discriminate|].
  destruct (Z.eqb_spec k k') as [->|Hne].
  - intros [= ->]. now left.
  - intros H. right. auto.
Qed.

Lemma In_dict_get k v d : dict_wf d -> In (k, v) d -> dict_get k d = Some v.
Proof.
  unfold dict_wf. induction d as [|[k' v'] r IH]; simpl; [tauto|].
  intros Hnd. inversion Hnd as [|? ? Hnotin Hr]; subst.
  intros [[= -> ->]|Hin].
  - now rewrite Z.eqb_refl.
  - destruct (Z.eqb_spec k k') as [->|Hne]; [|auto].
    exfalso. apply Hnotin. change k' with (fst (k', v)). now apply in_map.
Qed.

Lemma dict_contains_set_other k k' v d :
  k' <> k -> dict_contains k' (dict_set k v d) = dict_contains k' d.
Proof.
  intros Hne. rewrite !dict_contains_get. now rewrite dict_get_set_other.
Qed.

Lemma dict_contains_del_false k k' d :
  dict_contains k' d = false -> dict_contains k' (dict_del k d) = false.
Proof.
  rewrite !dict_contains_false_iff. intros Hno Hin. apply Hno.
  eapply dict_keys_del_incl; eauto.
Qed.

(** Assigning to a key that is there replaces the value where it stands. *)
Lemma dict_set_in_place k v old d :
  dict_get k d = Some old ->
  exists d1 d2,
    d = d1 ++ (k, old) :: d2 /\ dict_set k v d = d1 ++ (k, v) :: d2.
Proof.
  induction d as [|[k' v'] r IH]; simpl; [discriminate|].
  destruct (Z.eqb_spec k k') as [->|Hne].
  - intros [= ->]. now exists [], r.
  - intros H. destruct (IH H) as (d1 & d2 & -> & ->).
    now exists ((k', v') :: d1), d2.
Qed.

Lemma filter_keys_del (p : Z -> bool) k d :
  p k = false ->
  filter p (dict_keys (dict_del k d)) = filter p (dict_keys d).
Proof.
  intros Hp. induction d as [|[k' v'] r IH]; simpl; [reflexivity|].
  destruct (Z.eqb_spec k k') as [->|Hne]; simpl.
  - now rewrite Hp.
  - now rewrite IH.
Qed.

Lemma filter_contains_keys d :
  filter (fun k => dict_contains k d) (dict_keys d) = dict_keys d.
Proof.
  apply forallb_filter_id. apply forallb_forall.
  intros k Hk. now apply dict_contains_true_iff.
Qed.

Lemma Forall_dict_set (P : Z * V -> Prop) k v d :
  Forall P d -> P (k, v) -> Forall P (dict_set k v d).
Proof.
  intros Hd Hkv. induction d as [|[k' v'] r IH]; simpl.
  - now constructor.
  - inversion Hd; subst. destruct (k =? k'); constructor; auto.
Qed.

Lemma Forall_dict_del (P : Z * V -> Prop) k d :
  Forall P d -> Forall P (dict_del k d).
Proof.
  intros Hd. induction d as [|[k' v'] r IH]; simpl; [constructor|].
  inversion Hd; subst. destruct (k =? k'); [assumption|].
  constructor; auto.
Qed.

Lemma Forall_dict_key (P : Z * V -> Prop) (Q : Z -> Prop) k d :
  Forall P d -> (forall kv, P kv -> Q (fst kv)) ->
  dict_contains k d = true -> Q k.
Proof.
  intros Hd HPQ Hin. apply dict_contains_true_iff in Hin.
  unfold dict_keys in Hin. apply in_map_iff in Hin.
  destruct Hin as (kv & <- & Hkv). apply HPQ.
  rewrite Forall_forall in Hd. auto.
Qed.
End DictOrder.

(** ** Runs *)

Lemma run_cons self op ops :
  run self (op :: ops) =
  (state_after (fst (call self op)) ops,
   snd (call self op) :: returns (fst (call self op)) ops).
Proof.
  unfold state_after, returns. simpl.
  destruct (call self op) as [self1 r]. simpl.
  now destruct (run self1 ops).
Qed.

Lemma state_after_cons self op ops :
  state_after self (op :: ops) = state_after (fst (call self op)) ops.
Proof. unfold state_after at 1. now rewrite run_cons. Qed.

Lemma returns_cons self op ops :
  returns self (op :: ops) =
  snd (call self op) :: returns (fst (call self op)) ops.
Proof. unfold returns at 1. now rewrite run_cons. Qed.

Lemma state_after_app self ops1 ops2 :
  state_after self (ops1 ++ ops2) = state_after (state_after self ops1) ops2.
Proof.
  revert self. induction ops1 as [|op ops1 IH]; intros self; simpl.
  - reflexivity.
  - now rewrite !state_after_cons, IH.
Qed.

(** What a call does to the counter and to the mapping. *)
Lemma create_spec self book_data :
  create self book_data =
  if BookCreate.valid book_data then
    let book := {| Book.id := _next_id self;
                   Book.title := Some (BookCreate.title book_data);
                   Book.author := Some (BookCreate.author book_data);
                   Book.price := Some (BookCreate.price book_data);
                   Book.available := Some (BookCreate.available book_data) |} in
    ({| _books := dict_set (_next_id self) book (_books self);
        _next_id := _next_id self + 1 |}, Ok book)
  else
    ({| _books := _books self; _next_id := _next_id self + 1 |},
     Raise ValidationError).
Proof.
  unfold create, _generate_id, Book.new.
  now destruct (BookCreate.valid book_data).
Qed.

Lemma next_id_call self op :
  _next_id (fst (call self op)) =
  match op with Create _ => _next_id self + 1 | _ => _next_id self end.
Proof.
  destruct op as [bd| |j|j bd|j|j|]; simpl; try reflexivity.
  - rewrite create_spec. now destruct (BookCreate.valid bd).
  - unfold update. now destruct (dict_get j (_books self)).
  - unfold delete. now destruct (dict_contains j (_books self)).
Qed.

Lemma next_id_call_le self op : _next_id self <= _next_id (fst (call self op)).
Proof. rewrite next_id_call. destruct op; lia. Qed.

Lemma store_inv_init : store_inv __init__.
Proof. split; simpl; constructor. Qed.

Lemma store_inv_key_below self k :
  store_inv self -> dict_contains k (_books self) = true -> k < _next_id self.
Proof.
  intros [_ Hall] Hin.
  eapply Forall_dict_key with (Q := fun k => k < _next_id self);
    [exact Hall | | exact Hin].
  now intros kv [_ H].
Qed.

Lemma store_inv_fresh self :
  store_inv self -> dict_contains (_next_id self) (_books self) = false.
Proof.
  intros Hinv. destruct (dict_contains _ _) eqn:Hc; [|reflexivity].
  apply (store_inv_key_below _ Hinv) in Hc. lia.
Qed.

Lemma store_inv_call self op : store_inv self -> store_inv (fst (call self op)).
Proof.
  intros [Hwf Hall].
  destruct op as [bd| |j|j bd|j|j|]; simpl; try (split; assumption).
  - rewrite create_spec. destruct (BookCreate.valid bd); simpl.
    + split; simpl; [now apply dict_wf_set|].
      apply Forall_dict_set; simpl; [|lia].
      eapply Forall_impl; [|exact Hall]. simpl. intros kv [? ?]. lia.
    + split; simpl; [assumption|].
      eapply Forall_impl; [|exact Hall]. simpl. intros kv [? ?]. lia.
  - unfold update. destruct (dict_get j (_books self)) as [b|] eqn:Hget;
      simpl; [|split; assumption].
    split; simpl; [now apply dict_wf_set|].
    apply Forall_dict_set; [assumption|]. simpl.
    apply dict_get_In in Hget. rewrite Forall_forall in Hall.
    exact (Hall _ Hget).
  - unfold delete. destruct (dict_contains j (_books self)); simpl;
      [|split; assumption].
    split; simpl; [now apply dict_wf_del | now apply Forall_dict_del].
Qed.

Lemma store_inv_run self ops :
  store_inv self -> store_inv (state_after self ops).
Proof.
  revert self. induction ops as [|op ops IH]; intros self Hinv.
  - exact Hinv.
  - rewrite state_after_cons. apply IH. now apply store_inv_call.
Qed.

Lemma reachable_store_inv self : reachable self -> store_inv self.
Proof. intros [ops ->]. apply store_inv_run, store_inv_init. Qed.

(** ** The identifiers that [create] returns *)

Lemma create_results_cons self op ops :
  create_results (returns self (op :: ops)) =
  match op with
  | Create book_data => [snd (create self book_data)]
  | _ => []
  end ++ create_results (returns (fst (call self op)) ops).
Proof.
  rewrite returns_cons. destruct op as [bd| |j|j bd|j|j|]; simpl;
    try reflexivity.
  - now destruct (create self bd).
  - now destruct (update self j bd).
  - now destruct (delete self j).
Qed.

Lemma create_returns_counter self book_data b :
  snd (create self book_data) = Ok b -> Book.id b = _next_id self.
Proof.
  rewrite create_spec. destruct (BookCreate.valid book_data); simpl;
    [|discriminate].
  now intros [= <-].
Qed.

(** The [k]-th [create] call of a run takes the counter's value at the
    start of the run plus [k]. *)
Lemma create_results_ids ops :
  forall self k b,
    nth_error (create_results (returns self ops)) k = Some (Ok b) ->
    Book.id b = _next_id self + Z.of_nat k.
Proof.
  induction ops as [|op ops IH]; intros self k b.
  - destruct k; discriminate.
  - rewrite create_results_cons.
    destruct op as [bd| |j|j bd|j|j|]; cbn [app];
      try (intros H; apply IH in H; rewrite next_id_call in H; exact H).
    destruct k as [|k]; cbn [nth_error].
    + intros [= H]. apply create_returns_counter in H. lia.
    + intros H. apply IH in H. rewrite next_id_call in H. lia.
Qed.

(** Results numbered from [n] on list their ids in increasing order. *)
Lemma returned_ids_sorted rs :
  forall n : Z,
    (forall k b, nth_error rs k = Some (Ok b) ->
                 Book.id b = n + Z.of_nat k) ->
    StronglySorted Z.lt (returned_ids rs)
    /\ Forall (fun i => n <= i) (returned_ids rs).
Proof.
  induction rs as [|r rs IH]; intros n Hn; simpl.
  - split; constructor.
  - destruct (IH (n + 1)) as [Hs Hge].
    { intros k b Hk. rewrite (Hn (S k) b Hk). lia. }
    assert (Hge' : Forall (fun i => n <= i) (returned_ids rs))
      by (eapply Forall_impl; [|exact Hge]; simpl; intros; lia).
    destruct r as [b|e]; [|now split].
    pose proof (Hn 0%nat b eq_refl) as Hb. split; constructor; auto; try lia.
    eapply Forall_impl; [|exact Hge]. simpl. intros. lia.
Qed.

Lemma StronglySorted_lt_NoDup (l : list Z) :
  StronglySorted Z.lt l -> NoDup l.
Proof.
  induction 1 as [|a l Hs IH Hall]; constructor; [|exact IH].
  intros Hin. rewrite Forall_forall in Hall. specialize (Hall a Hin). lia.
Qed.

Lemma created_ids_from self ops :
  StronglySorted Z.lt (created_ids (returns self ops))
  /\ Forall (fun i => _next_id self <= i) (created_ids (returns self ops)).
Proof.
  unfold created_ids. apply returned_ids_sorted.
  intros k b. apply create_results_ids.
Qed.

(** When every input is valid, no [create] raises and the ids returned
    are the consecutive values of the counter. *)
Lemma created_ids_valid ops :
  forall self,
    forallb op_valid ops = true ->
    created_ids (returns self ops) =
    map (fun k => _next_id self + Z.of_nat k)
        (seq 0 (List.length (create_results (returns self ops)))).
Proof.
  unfold created_ids.
  induction ops as [|op ops IH]; intros self Hv; [reflexivity|].
  simpl in Hv. apply andb_prop in Hv. destruct Hv as [Hop Hv].
  rewrite create_results_cons. specialize (IH (fst (call self op)) Hv).
  rewrite next_id_call in IH.
  destruct op as [bd| |j|j bd|j|j|]; cbn [app]; try exact IH.
  simpl in Hop. rewrite create_spec at 1. rewrite Hop. cbv zeta.
  cbn [snd returned_ids Book.id List.length seq map].
  rewrite IH. f_equal; [lia|].
  rewrite <- seq_shift, map_map. apply map_ext. intros k. lia.
Qed.

(** C1: in every sequence of store operations from an empty store, the
    [k]-th [create] call (from 0) returns, when it returns, the id
    [k + 1]; the ids returned are strictly increasing, so no two are
    equal, and they are 1, 2, 3, ... when the inputs are valid; and once
    [delete(id)] has returned [True], no later [create] returns [id]. *)
Theorem create_ids_increase_and_are_never_reused :
  forall ops : list Op,
    let rets := returns __init__ ops in
    (forall k b, nth_error (create_results rets) k = Some (Ok b) ->
                 Book.id b = Z.of_nat k + 1)
    /\ StronglySorted Z.lt (created_ids rets)
    /\ NoDup (created_ids rets)
    /\ (forallb op_valid ops = true ->
        created_ids rets =
        map (fun k => Z.of_nat k + 1)
            (seq 0 (List.length (create_results rets))))
    /\ (forall (book_id : Z) (later : list Op),
          let self := state_after __init__ ops in
          snd (delete self book_id) = true ->
          ~ In book_id
              (created_ids (returns (fst (delete self book_id)) later))).
Proof.
  intros ops rets. subst rets.
  destruct (created_ids_from __init__ ops) as [Hsorted _].
  repeat split.
  - intros k b H. apply create_results_ids in H.
    change (_next_id __init__) with 1 in H. lia.
  - exact Hsorted.
  - now apply StronglySorted_lt_NoDup.
  - intros Hv. rewrite (created_ids_valid _ _ Hv).
    change (_next_id __init__) with 1. apply map_ext. intros k. lia.
  - intros book_id later self Hdel Hin.
    assert (Hinv : store_inv self)
      by (apply store_inv_run, store_inv_init).
    unfold delete in Hdel, Hin.
    destruct (dict_contains book_id (_books self)) eqn:Hc;
      [|discriminate].
    apply (store_inv_key_below _ Hinv) in Hc. simpl in Hin.
    destruct (created_ids_from
                {| _books := dict_del book_id (_books self);
                   _next_id := _next_id self |} later) as [_ Hge].
    rewrite Forall_forall in Hge. specialize (Hge _ Hin). simpl in Hge. lia.
Qed.

(** ** The order of [get_all] *)

Lemma get_all_ids self :
  store_inv self -> map Book.id (get_all self) = dict_keys (_books self).
Proof.
  intros [_ Hall]. unfold get_all, dict_values, dict_keys.
  rewrite map_map. apply map_ext_in. intros kv Hkv.
  rewrite Forall_forall in Hall. now destruct (Hall kv Hkv).
Qed.

(** An id that is below the counter and not in the mapping stays out. *)
Lemma retired_id_stays_out ops :
  forall self k,
    store_inv self -> k < _next_id self ->
    dict_contains k (_books self) = false ->
    dict_contains k (_books (state_after self ops)) = false.
Proof.
  induction ops as [|op ops IH]; intros self k Hinv Hlt Hout; [exact Hout|].
  rewrite state_after_cons.
  apply IH;
    [ now apply store_inv_call
    | pose proof (next_id_call_le self op); lia | ].
  destruct op as [bd| |j|j bd|j|j|]; simpl; try exact Hout.
  - rewrite create_spec. destruct (BookCreate.valid bd); simpl;
      [|exact Hout].
    rewrite dict_contains_set_other by lia. exact Hout.
  - unfold update. destruct (dict_get j (_books self)) as [b|] eqn:Hget;
      simpl; [|exact Hout].
    destruct (Z.eq_dec k j) as [->|Hne].
    + rewrite dict_contains_get, Hget in Hout. discriminate.
    + now rewrite dict_contains_set_other.
  - unfold delete. destruct (dict_contains j (_books self)); simpl;
      [|exact Hout].
    now apply dict_contains_del_false.
Qed.

(** The keys of the mapping are the keys at the start of the run and the
    ids created during it, in that order, without those no longer there. *)
Lemma keys_in_creation_order ops :
  forall self,
    store_inv self ->
    dict_keys (_books (state_after self ops)) =
    filter (exists_ (state_after self ops))
           (dict_keys (_books self) ++ created_ids (returns self ops)).
Proof.
  unfold created_ids.
  induction ops as [|op ops IH]; intros self Hinv.
  - simpl. rewrite app_nil_r. symmetry. apply filter_contains_keys.
  - rewrite state_after_cons, create_results_cons.
    rewrite (IH _ (store_inv_call op Hinv)) at 1.
    set (live := exists_ (state_after (fst (call self op)) ops)).
    destruct op as [bd| |j|j bd|j|j|]; cbn [app]; try reflexivity.
    + simpl. rewrite create_spec.
      destruct (BookCreate.valid bd); simpl; [|reflexivity].
      rewrite dict_keys_set_absent by now apply store_inv_fresh.
      now rewrite <- app_assoc.
    + simpl. unfold update.
      destruct (dict_get j (_books self)) as [b|] eqn:Hget; simpl;
        [|reflexivity].
      rewrite dict_keys_set_present; [reflexivity|].
      rewrite dict_contains_get. now rewrite Hget.
    + assert (Hlive : dict_contains j (_books self) = true -> live j = false).
      { intros Hc. subst live. unfold exists_.
        apply retired_id_stays_out.
        - now apply store_inv_call.
        - rewrite next_id_call. now apply store_inv_key_below.
        - simpl. unfold delete. rewrite Hc. simpl.
          apply dict_contains_del. apply Hinv. }
      clearbody live. simpl. unfold delete.
      destruct (dict_contains j (_books self)); simpl; [|reflexivity].
      rewrite !filter_app. f_equal. apply filter_keys_del. now apply Hlive.
Qed.

(** C8: in every state that a sequence of store operations reaches from
    an empty store, [get_all()] holds exactly the records that
    [get_by_id] finds; their ids are the ids that [create] returned, in
    the order of the calls, without those no longer in the store; an
    [update] puts the new record where the old one stood; and with no
    record in the store [get_all()] is the empty list. *)
Theorem get_all_lists_live_records_in_creation_order :
  forall ops : list Op,
    let self := state_after __init__ ops in
    (forall b : Book.t,
        In b (get_all self) <-> get_by_id self (Book.id b) = Some b)
    /\ map Book.id (get_all self) =
       filter (exists_ self) (created_ids (returns __init__ ops))
    /\ (forall (book_id : Z) (patch : BookUpdate.t) (b' : Book.t),
          snd (update self book_id patch) = Some b' ->
          exists (before : list Book.t) (old : Book.t) (after : list Book.t),
            get_by_id self book_id = Some old
            /\ get_all self = before ++ old :: after
            /\ get_all (fst (update self book_id patch))
               = before ++ b' :: after)
    /\ (count self = 0 -> get_all self = []).
Proof.
  intros ops self.
  assert (Hinv : store_inv self) by (apply store_inv_run, store_inv_init).
  repeat split.
  - intros Hin. unfold get_all, dict_values in Hin.
    apply in_map_iff in Hin. destruct Hin as ([k v] & Hv & Hkv).
    simpl in Hv. subst v. destruct Hinv as [Hwf Hall].
    rewrite Forall_forall in Hall. destruct (Hall _ Hkv) as [Hid _].
    simpl in Hid. rewrite Hid. unfold get_by_id. now apply In_dict_get.
  - intros Hget. unfold get_by_id in Hget. apply dict_get_In in Hget.
    unfold get_all, dict_values. apply in_map_iff.
    now exists (Book.id b, b).
  - rewrite (get_all_ids Hinv). subst self.
    now rewrite (keys_in_creation_order ops store_inv_init).
  - intros book_id patch b'. unfold update, get_by_id, get_all.
    destruct (dict_get book_id (_books self)) as [old|] eqn:Hget;
      simpl; [|discriminate].
    intros [= <-].
    destruct (dict_set_in_place book_id
                (Book.model_copy old
                   (BookUpdate.model_dump_exclude_unset patch)) _ Hget)
      as (d1 & d2 & Hd & Hset).
    exists (dict_values d1), old, (dict_values d2).
    rewrite Hset, Hd. unfold dict_values. rewrite !map_app. simpl.
    repeat split.
  - unfold count, dict_len, get_all, dict_values.
    destruct (_books self); simpl; [reflexivity | lia].
Qed.

(** ** The field constraints of stored records *)

(** A record that [Book(...)] built satisfies the constraints. *)
Lemma new_book_constraints book_id book_data b :
  Book.new book_id book_data = Ok b -> Book.field_constraints b = true.
Proof.
  unfold Book.new. destruct (BookCreate.valid book_data) eqn:Hv;
    [|discriminate].
  intros [= <-]. exact Hv.
Qed.

(** A valid patch that sets no field to [None] keeps them. *)
Lemma model_copy_constraints book patch :
  Book.field_constraints book = true ->
  BookUpdate.valid patch = true ->
  no_explicit_null patch = true ->
  Book.field_constraints
    (Book.model_copy book (BookUpdate.model_dump_exclude_unset patch)) = true.
Proof.
  unfold Book.field_constraints, Book.model_copy, no_explicit_null,
    BookUpdate.model_dump_exclude_unset, BookUpdate.dump_field,
    BookUpdate.valid, BookUpdate.opt_ok, Book.copy_field.
  destruct book as [i bt ba bp bav]. destruct patch as [t a p av fs].
  cbn [Book.title Book.author Book.price Book.available Book.id
       UpdateData.title UpdateData.author UpdateData.price
       UpdateData.available BookUpdate.title BookUpdate.author
       BookUpdate.price BookUpdate.available].
  generalize (BookUpdate.is_set f_title (BookUpdate.Build t a p av fs)),
    (BookUpdate.is_set f_author (BookUpdate.Build t a p av fs)),
    (BookUpdate.is_set f_price (BookUpdate.Build t a p av fs)),
    (BookUpdate.is_set f_available (BookUpdate.Build t a p av fs)).
  intros s1 s2 s3 s4.
  destruct bt, ba, bp, bav; try discriminate.
  destruct t, a, p, av, s1, s2, s3, s4;
    cbn -[title_ok author_ok gt_zero]; intros Hb Hv Hn;
    try discriminate;
    repeat match goal with
      | H : _ && _ = true |- _ => apply andb_prop in H; destruct H
      end;
    repeat match goal with
      | H : ?x = true |- context [?x] => rewrite H
      end;
    reflexivity.
Qed.

(** With valid inputs and no field set to [None], every stored record
    satisfies the field constraints. *)
Lemma constraints_hold_without_explicit_null ops :
  forall self,
    Forall (fun kv => Book.field_constraints (snd kv) = true) (_books self) ->
    forallb op_valid ops = true ->
    forallb op_no_explicit_null ops = true ->
    Forall (fun kv => Book.field_constraints (snd kv) = true)
      (_books (state_after self ops)).
Proof.
  induction ops as [|op ops IH]; intros self Hall Hv Hn; [exact Hall|].
  simpl in Hv, Hn. apply andb_prop in Hv, Hn.
  destruct Hv as [Hv1 Hv], Hn as [Hn1 Hn].
  rewrite state_after_cons. apply IH; [|assumption|assumption].
  destruct op as [bd| |j|j bd|j|j|]; simpl; try exact Hall.
  - unfold create, _generate_id. simpl.
    destruct (Book.new (_next_id self) bd) as [b|e] eqn:Hnew; simpl;
      [|exact Hall].
    apply Forall_dict_set; [exact Hall|]. simpl.
    eapply new_book_constraints; eauto.
  - unfold update. destruct (dict_get j (_books self)) as [b|] eqn:Hget;
      simpl; [|exact Hall].
    apply Forall_dict_set; [exact Hall|]. simpl.
    apply model_copy_constraints; try assumption.
    apply dict_get_In in Hget. rewrite Forall_forall in Hall.
    exact (Hall _ Hget).
  - unfold delete. destruct (dict_contains j (_books self)); simpl;
      [|exact Hall].
    now apply Forall_dict_del.
Qed.

(** C3 at a failing input: a create and an update whose bodies pass the
    validation of the request handlers, the update setting [title] to
    [None], leave a record without title in the store. *)
Theorem explicit_null_patch_breaks_field_constraints :
  let ops :=
    [Create dune; Update 1 null_title_patch] in
  forallb op_valid ops = true
  /\ get_all (state_after __init__ ops) =
     [ Book.Build 1 None (Some "Frank Herbert"%string) (Some 15.0%float)
         (Some true) ]
  /\ forallb Book.field_constraints (get_all (state_after __init__ ops))
     = false.
Proof. vm_compute. repeat split. Qed.

(** ** Who chooses the id *)

(** The store gives a created record the value of its counter, whatever
    the input: a [BookCreate] has no [id]. *)
Lemma create_assigns_counter self book_data :
  _next_id (fst (create self book_data)) = _next_id self + 1
  /\ forall b, snd (create self book_data) = Ok b ->
               Book.id b = _next_id self.
Proof.
  split; [|intros b; apply create_returns_counter].
  rewrite create_spec. now destruct (BookCreate.valid book_data).
Qed.

(** C4 at a failing input: the entry point of [main.py] stores a book
    under the id its caller sent, so two creates with the id 1 leave two
    records with the id 1. *)
Theorem legacy_add_book_keeps_caller_id :
  let first := Legacy.BuildBook 1 "Dune" "Frank Herbert" 15.0 true in
  let second := Legacy.BuildBook 1 "Emma" "Jane Austen" 9.5 true in
  let books1 := fst (Legacy.add_book Legacy.books_init first) in
  let books2 := fst (Legacy.add_book books1 second) in
  snd (Legacy.add_book books1 second) = second
  /\ map Legacy.id (Legacy.get_books books2) = [1; 1]
  /\ Legacy.get_book books2 1 = Some first.
Proof. vm_compute. repeat split. Qed.

(** ** Instances *)

(** One stored book, and the id 7 that it does not have. *)
Lemma not_found_is_reported_without_mutation_witness :
  get_by_id one_book 7 = None
  /\ update one_book 7 price_patch = (one_book, None)
  /\ delete one_book 7 = (one_book, false)
  /\ count (fst (update one_book 7 price_patch)) = count one_book
  /\ count (fst (delete one_book 7)) = count one_book.
Proof.
  apply (not_found_is_reported_without_mutation one_book 7 price_patch).
  vm_compute. reflexivity.
Defined.

(** A second create on the store with one book. *)
Lemma create_then_get_by_id_witness :
  exists r : Book.t,
    snd (create one_book dune) = Ok r
    /\ get_by_id (fst (create one_book dune)) (Book.id r) = Some r.
Proof.
  apply (create_then_get_by_id one_book dune). vm_compute. reflexivity.
Defined.

(** Deleting the one book, twice. *)
Lemma delete_removes_exactly_one_witness :
  snd (delete one_book 1) = true
  /\ get_by_id (fst (delete one_book 1)) 1 = None
  /\ count (fst (delete one_book 1)) = count one_book - 1
  /\ delete (fst (delete one_book 1)) 1 = (fst (delete one_book 1), false)
  /\ count (fst (delete (fst (delete one_book 1)) 1))
     = count (fst (delete one_book 1)).
Proof.
  apply (delete_removes_exactly_one one_book 1).
  - vm_compute. repeat constructor. simpl. tauto.
  - vm_compute. reflexivity.
Defined.

(** A patch of the price alone on the one book. *)
Lemma update_replaces_exactly_the_set_fields_witness :
  exists book' : Book.t,
    snd (update one_book 1 price_patch) = Some book'
    /\ get_by_id (fst (update one_book 1 price_patch)) 1 = Some book'
    /\ Book.id book' = 1
    /\ Book.title book' = Some "Dune"%string
    /\ Book.author book' = Some "Frank Herbert"%string
    /\ Book.price book' = Some 19.99%float
    /\ Book.available book' = Some true
    /\ (forall other : Z, other <> 1 ->
          get_by_id (fst (update one_book 1 price_patch)) other
          = get_by_id one_book other)
    /\ _next_id (fst (update one_book 1 price_patch)) = _next_id one_book.
Proof.
  apply (update_replaces_exactly_the_set_fields one_book 1
           (book := Book.Build 1 (Some "Dune"%string)
                      (Some "Frank Herbert"%string) (Some 15.0%float)
                      (Some true))
           price_patch).
  vm_compute. reflexivity.
Defined.

(** * Further properties of the store *)

(** ** Dictionaries: assignment and removal in detail *)

Section DictMore.
Variable V : Type.
Implicit Types (d : dict V) (k : Z) (v : V).

Lemma dict_set_same_value k v d : dict_get k d = Some v -> dict_set k v d = d.
Proof.
  induction d as [|[k' v'] r IH]; simpl; [discriminate|].
  destruct (Z.eqb_spec k k') as [->|Hne].
  - now intros [= ->].
  - intros H. now rewrite (IH H).
Qed.

Lemma dict_set_twice k v v' d :
  dict_set k v (dict_set k v' d) = dict_set k v d.
Proof.
  induction d as [|[k0 v0] r IH]; simpl.
  - now rewrite Z.eqb_refl.
  - destruct (Z.eqb_spec k k0) as [->|Hne]; simpl.
    + now rewrite Z.eqb_refl.
    + destruct (Z.eqb_spec k k0); [contradiction | now rewrite IH].
Qed.

Lemma dict_values_set_absent k v d :
  dict_contains k d = false ->
  dict_values (dict_set k v d) = dict_values d ++ [v].
Proof.
  induction d as [|[k' v'] r IH]; simpl; [reflexivity|].
  destruct (k =? k'); simpl; [discriminate|].
  intros H. now rewrite (IH H).
Qed.

Lemma dict_len_set_absent k v d :
  dict_contains k d = false -> dict_len (dict_set k v d) = dict_len d + 1.
Proof.
  unfold dict_len.
  induction d as [|[k' v'] r IH]; cbn [dict_contains dict_set];
    [reflexivity|].
  destruct (k =? k'); cbn [List.length]; rewrite ?Nat2Z.inj_succ;
    [discriminate|].
  intros H. apply IH in H. lia.
Qed.

Lemma dict_get_del_other k k' d :
  k' <> k -> dict_get k' (dict_del k d) = dict_get k' d.
Proof.
  intros Hne. induction d as [|[k0 v0] r IH]; simpl; [reflexivity|].
  destruct (Z.eqb_spec k k0) as [->|Hk]; simpl.
  - destruct (Z.eqb_spec k' k0); [contradiction | reflexivity].
  - now rewrite IH.
Qed.

(** Removing a key takes out the one value filed under it: [key_of]
    reads the key off a value. *)
Lemma dict_values_del (key_of : V -> Z) k d :
  dict_wf d -> Forall (fun kv => key_of (snd kv) = fst kv) d ->
  dict_values (dict_del k d) =
  filter (fun v => negb (key_of v =? k)) (dict_values d).
Proof.
  unfold dict_wf. induction d as [|[k0 v0] r IH]; simpl; [reflexivity|].
  intros Hnd Hall. inversion Hnd as [|? ? Hnotin Hr]; subst.
  inversion Hall as [|? ? Hk0 Hrest]; subst. simpl in Hk0.
  rewrite Hk0, (Z.eqb_sym k0 k).
  destruct (Z.eqb_spec k k0) as [->|Hne]; simpl.
  - symmetry. apply forallb_filter_id. apply forallb_forall.
    intros v Hv. unfold dict_values in Hv. apply in_map_iff in Hv.
    destruct Hv as ([k1 v1] & <- & Hin). simpl.
    rewrite Forall_forall in Hrest. specialize (Hrest _ Hin).
    simpl in Hrest. rewrite Hrest.
    destruct (Z.eqb_spec k1 k0) as [->|]; [|reflexivity].
    exfalso. apply Hnotin. change k0 with (fst (k0, v1)). now apply in_map.
  - now rewrite IH.
Qed.
End DictMore.

(** ** Invariants of the states reached *)

(** The ids in use are positive: the counter starts at 1 and only grows. *)
Lemma ids_positive_run ops :
  forall self,
    1 <= _next_id self ->
    Forall (fun kv => 1 <= fst kv) (_books self) ->
    Forall (fun kv => 1 <= fst kv) (_books (state_after self ops)).
Proof.
  induction ops as [|op ops IH]; intros self Hn Hall; [exact Hall|].
  rewrite state_after_cons.
  apply IH; [pose proof (next_id_call_le self op); lia|].
  destruct op as [bd| |j|j bd|j|j|]; simpl; try exact Hall.
  - rewrite create_spec. destruct (BookCreate.valid bd); simpl;
      [|exact Hall].
    now apply Forall_dict_set.
  - unfold update. destruct (dict_get j (_books self)) as [b|] eqn:Hget;
      simpl; [|exact Hall].
    apply Forall_dict_set; [exact Hall|]. simpl.
    apply dict_get_In in Hget. rewrite Forall_forall in Hall.
    exact (Hall _ Hget).
  - unfold delete. destruct (dict_contains j (_books self)); simpl;
      [|exact Hall].
    now apply Forall_dict_del.
Qed.

(** The counter counts the [create] calls, those that raised included. *)
Lemma next_id_run ops :
  forall self,
    _next_id (state_after self ops) =
    _next_id self + Z.of_nat (List.length (create_results (returns self ops))).
Proof.
  induction ops as [|op ops IH]; intros self;
    [unfold state_after, returns; simpl; lia|].
  rewrite state_after_cons, create_results_cons, IH, next_id_call.
  destruct op; cbn [app List.length]; rewrite ?Nat2Z.inj_succ; lia.
Qed.

(** X1: in every state reached from an empty store, a record is filed
    under its own id, that id is at least 1 and below the counter, no two
    records of [get_all()] have the same id, and the counter is 1 plus
    the number of [create] calls made. *)
Theorem reached_states_keep_ids_consistent :
  forall ops : list Op,
    let self := state_after __init__ ops in
    (forall (k : Z) (b : Book.t),
        get_by_id self k = Some b ->
        Book.id b = k /\ 1 <= k < _next_id self)
    /\ NoDup (map Book.id (get_all self))
    /\ _next_id self =
       1 + Z.of_nat (List.length (create_results (returns __init__ ops))).
Proof.
  intros ops self.
  assert (Hinv : store_inv self) by (apply store_inv_run, store_inv_init).
  assert (Hpos : Forall (fun kv => 1 <= fst kv) (_books self)).
  { apply ids_positive_run; simpl; [lia | constructor]. }
  split; [|split].
  - intros k b Hget. unfold get_by_id in Hget. apply dict_get_In in Hget.
    destruct Hinv as [_ Hall]. rewrite Forall_forall in Hall, Hpos.
    destruct (Hall _ Hget) as [Hid Hlt]. specialize (Hpos _ Hget).
    simpl in *. lia.
  - rewrite (get_all_ids Hinv). apply Hinv.
  - subst self. now rewrite next_id_run.
Qed.

(** ** Counting records *)

Lemma deleted_count_cons self op ops :
  deleted_count (returns self (op :: ops)) =
  match op with
  | Delete book_id => if snd (delete self book_id) then 1 else 0
  | _ => 0
  end + deleted_count (returns (fst (call self op)) ops).
Proof.
  rewrite returns_cons. destruct op as [bd| |j|j bd|j|j|]; simpl;
    try reflexivity.
  - now destruct (create self bd).
  - now destruct (update self j bd).
  - destruct (delete self j) as [s1 []]; simpl; [|reflexivity].
    now destruct (deleted_count (returns s1 ops)).
Qed.

Lemma count_balance_from ops :
  forall self,
    store_inv self ->
    count (state_after self ops) =
    count self + created_count (returns self ops)
    - deleted_count (returns self ops).
Proof.
  unfold created_count, created_ids.
  induction ops as [|op ops IH]; intros self Hinv;
    [unfold state_after, returns; simpl; lia|].
  rewrite state_after_cons, create_results_cons, deleted_count_cons.
  rewrite (IH _ (store_inv_call op Hinv)).
  destruct op as [bd| |j|j bd|j|j|]; cbn [app]; try (simpl; lia).
  - simpl. rewrite create_spec.
    destruct (BookCreate.valid bd); cbn [fst snd returned_ids List.length];
      [|unfold count; simpl; lia].
    unfold count. cbn [_books]. rewrite Nat2Z.inj_succ.
    rewrite dict_len_set_absent by now apply store_inv_fresh. lia.
  - simpl. unfold update, count.
    destruct (dict_get j (_books self)) as [b|] eqn:Hget; simpl; [|lia].
    rewrite dict_len_set_present; [lia|].
    rewrite dict_contains_get. now rewrite Hget.
  - simpl. unfold delete, count.
    destruct (dict_contains j (_books self)) eqn:Hc; cbn [fst snd _books];
      [|lia].
    rewrite dict_len_del by assumption. lia.
Qed.

(** X2: after any sequence of calls on an empty store, [count()] is the
    number of [create] calls that returned a record minus the number of
    [delete] calls that returned [True]. *)
Theorem count_is_creates_minus_deletes :
  forall ops : list Op,
    count (state_after __init__ ops) =
    created_count (returns __init__ ops)
    - deleted_count (returns __init__ ops).
Proof.
  intros ops. rewrite (count_balance_from ops store_inv_init).
  unfold count. simpl. lia.
Qed.

(** ** What a call leaves alone *)

(** X3: in a state reached from an empty store, [create] on a valid input
    returns a record made of the counter's value and the input's fields,
    under an id not in use; the record goes last in [get_all()], [count()]
    goes up by one and the other ids read as before. *)
Theorem create_appends_a_fresh_record :
  forall (self : BookDatabase) (book_data : BookCreate.t),
    reachable self ->
    BookCreate.valid book_data = true ->
    let r := Book.Build (_next_id self)
               (Some (BookCreate.title book_data))
               (Some (BookCreate.author book_data))
               (Some (BookCreate.price book_data))
               (Some (BookCreate.available book_data)) in
    snd (create self book_data) = Ok r
    /\ exists_ self (Book.id r) = false
    /\ get_all (fst (create self book_data)) = get_all self ++ [r]
    /\ count (fst (create self book_data)) = count self + 1
    /\ (forall other : Z, other <> Book.id r ->
          get_by_id (fst (create self book_data)) other
          = get_by_id self other).
Proof.
  intros self book_data Hreach Hvalid r.
  apply reachable_store_inv in Hreach.
  pose proof (store_inv_fresh Hreach) as Hfresh.
  rewrite create_spec, Hvalid. cbv zeta. fold r. cbn [fst snd].
  unfold exists_, get_all, count, get_by_id. cbn [_books Book.id r].
  split; [reflexivity|]. split; [exact Hfresh|].
  split; [now apply dict_values_set_absent|].
  split; [now apply dict_len_set_absent|].
  intros other Hne. now apply dict_get_set_other.
Qed.

(** X4: in a state reached from an empty store, [delete(id)] takes the
    record with that id, if any, out of [get_all()] and keeps the others
    in their order; the other ids read as before and the counter does not
    move. *)
Theorem delete_keeps_the_other_records :
  forall (self : BookDatabase) (book_id : Z),
    reachable self ->
    get_all (fst (delete self book_id)) =
    filter (fun b => negb (Book.id b =? book_id)) (get_all self)
    /\ (forall other : Z, other <> book_id ->
          get_by_id (fst (delete self book_id)) other
          = get_by_id self other)
    /\ _next_id (fst (delete self book_id)) = _next_id self.
Proof.
  intros self book_id Hreach. apply reachable_store_inv in Hreach.
  destruct Hreach as [Hwf Hall].
  assert (Hkeys : Forall (fun kv => Book.id (snd kv) = fst kv) (_books self))
    by (eapply Forall_impl; [|exact Hall]; simpl; tauto).
  pose proof (dict_values_del Book.id book_id Hwf Hkeys) as Hvals.
  unfold delete, get_all, get_by_id.
  destruct (dict_contains book_id (_books self)) eqn:Hc; cbn [fst _books].
  - split; [exact Hvals|]. split; [|reflexivity].
    intros other Hne. now apply dict_get_del_other.
  - rewrite (dict_del_absent _ _ Hc) in Hvals. repeat split. exact Hvals.
Qed.

(** X5: [update] never adds or removes a record: in every state and for
    every id and patch, the ids in the store, their order and [count()]
    are the same after the call. *)
Theorem update_keeps_the_ids :
  forall (self : BookDatabase) (book_id : Z) (patch : BookUpdate.t),
    dict_keys (_books (fst (update self book_id patch)))
    = dict_keys (_books self)
    /\ count (fst (update self book_id patch)) = count self
    /\ (forall other : Z,
          exists_ (fst (update self book_id patch)) other
          = exists_ self other).
Proof.
  intros self book_id patch.
  assert (Hkeys : dict_keys (_books (fst (update self book_id patch)))
                  = dict_keys (_books self)).
  { unfold update.
    destruct (dict_get book_id (_books self)) as [b|] eqn:Hget;
      cbn [fst _books]; [|reflexivity].
    apply dict_keys_set_present. rewrite dict_contains_get. now rewrite Hget. }
  split; [exact Hkeys|]. split.
  - unfold count, dict_len. f_equal.
    rewrite <- (length_map fst (_books (fst (update self book_id patch)))).
    rewrite <- (length_map fst (_books self)).
    unfold dict_keys in Hkeys. now rewrite Hkeys.
  - intros other. unfold exists_.
    destruct (dict_contains other (_books self)) eqn:Hc.
    + apply dict_contains_true_iff. rewrite Hkeys.
      now apply dict_contains_true_iff.
    + apply dict_contains_false_iff. rewrite Hkeys.
      now apply dict_contains_false_iff.
Qed.

Lemma model_copy_twice book update_data :
  Book.model_copy (Book.model_copy book update_data) update_data
  = Book.model_copy book update_data.
Proof.
  destruct update_data as [[t|] [a|] [p|] [av|]]; reflexivity.
Qed.

(** X6: [update] is idempotent: the same patch on the same id a second
    time returns the same record and leaves the state of the first call. *)
Theorem update_twice_is_update_once :
  forall (self : BookDatabase) (book_id : Z) (patch : BookUpdate.t),
    update (fst (update self book_id patch)) book_id patch
    = update self book_id patch.
Proof.
  intros self book_id patch. unfold update at 2 3.
  destruct (dict_get book_id (_books self)) as [b|] eqn:Hget; cbn [fst].
  - unfold update. cbn [_books _next_id].
    rewrite dict_get_set_same, model_copy_twice. now rewrite dict_set_twice.
  - unfold update. now rewrite Hget.
Qed.

(** X7: a patch that sets no field (the body [{}]) changes nothing: the
    state is the one before the call, and the call returns what
    [get_by_id] returns. *)
Theorem update_with_nothing_set_is_a_read :
  forall (self : BookDatabase) (book_id : Z) (patch : BookUpdate.t),
    BookUpdate.model_fields_set patch = [] ->
    update self book_id patch = (self, get_by_id self book_id).
Proof.
  intros self book_id patch Hset. unfold update, get_by_id.
  destruct (dict_get book_id (_books self)) as [b|] eqn:Hget;
    [|reflexivity].
  assert (Hcopy : Book.model_copy b
                    (BookUpdate.model_dump_exclude_unset patch) = b).
  { unfold Book.model_copy, BookUpdate.model_dump_exclude_unset,
      BookUpdate.dump_field, BookUpdate.is_set.
    rewrite Hset. now destruct b. }
  rewrite Hcopy, (dict_set_same_value _ _ Hget). now destruct self.
Qed.

(** X8: from an empty store, when every body is valid and no update sets
    a field to [None], every record of [get_all()] satisfies the field
    constraints of [BookBase]. *)
Theorem valid_inputs_without_null_keep_constraints :
  forall ops : list Op,
    forallb op_valid ops = true ->
    forallb op_no_explicit_null ops = true ->
    forallb Book.field_constraints (get_all (state_after __init__ ops))
    = true.
Proof.
  intros ops Hv Hn. apply forallb_forall. intros b Hb.
  unfold get_all, dict_values in Hb. apply in_map_iff in Hb.
  destruct Hb as (kv & <- & Hkv).
  pose proof (@constraints_hold_without_explicit_null ops __init__
                (Forall_nil _) Hv Hn) as Hall.
  rewrite Forall_forall in Hall. exact (Hall _ Hkv).
Qed.

(** X9: a [create] whose input [Book(...)] refuses raises after the id
    was taken: the mapping is as before, and the next [create] on a valid
    input returns the id after the one that was lost. *)
Theorem refused_create_still_takes_an_id :
  forall (self : BookDatabase) (bad good : BookCreate.t),
    BookCreate.valid bad = false ->
    BookCreate.valid good = true ->
    snd (create self bad) = Raise ValidationError
    /\ _books (fst (create self bad)) = _books self
    /\ exists r : Book.t,
         snd (create (fst (create self bad)) good) = Ok r
         /\ Book.id r = _next_id self + 1.
Proof.
  intros self bad good Hbad Hgood.
  rewrite (create_spec self bad), Hbad. cbn [fst snd _books].
  repeat split. rewrite create_spec, Hgood. cbv zeta. cbn [snd].
  eexists. split; reflexivity.
Qed.

(** X10: an [update] that sets all four fields to those of a valid create
    body replaces the stored record by the one [Book(...)] builds from
    that body under the same id. *)
Theorem full_update_is_a_replacement :
  forall (self : BookDatabase) (book_id : Z) (body : BookCreate.t),
    reachable self ->
    exists_ self book_id = true ->
    BookCreate.valid body = true ->
    exists r : Book.t,
      Book.new book_id body = Ok r
      /\ snd (update self book_id (full_patch body)) = Some r
      /\ get_by_id (fst (update self book_id (full_patch body))) book_id
         = Some r.
Proof.
  intros self book_id body Hreach Hin Hvalid.
  apply reachable_store_inv in Hreach. destruct Hreach as [_ Hall].
  unfold exists_ in Hin. rewrite dict_contains_get in Hin.
  unfold Book.new. rewrite Hvalid. eexists. split; [reflexivity|].
  unfold update, get_by_id.
  destruct (dict_get book_id (_books self)) as [old|] eqn:Hget;
    [|discriminate].
  apply dict_get_In in Hget. rewrite Forall_forall in Hall.
  destruct (Hall _ Hget) as [Hid _]. simpl in Hid.
  cbn [fst snd _books]. rewrite dict_get_set_same.
  unfold Book.model_copy. cbn. rewrite Hid. split; reflexivity.
Qed.

(** * The list-backed entry point *)

Lemma legacy_get_book_app books1 books2 book_id :
  Legacy.get_book (books1 ++ books2) book_id =
  match Legacy.get_book books1 book_id with
  | Some old => Some old
  | None => Legacy.get_book books2 book_id
  end.
Proof.
  induction books1 as [|b r IH]; simpl; [reflexivity|].
  now destruct (Legacy.id b =? book_id).
Qed.

Lemma legacy_get_book_split books book_id old :
  Legacy.get_book books book_id = Some old ->
  exists before after,
    books = before ++ old :: after
    /\ Legacy.get_book before book_id = None
    /\ Legacy.id old = book_id.
Proof.
  induction books as [|b r IH]; simpl; [discriminate|].
  destruct (Z.eqb_spec (Legacy.id b) book_id) as [Heq|Hne].
  - intros [= ->]. now exists [], r.
  - intros H. destruct (IH H) as (l1 & l2 & -> & Hnone & Hid).
    exists (b :: l1), l2. simpl.
    destruct (Z.eqb_spec (Legacy.id b) book_id); [contradiction|].
    repeat split; assumption.
Qed.

Lemma legacy_update_book_at before after book_id old updated_book :
  Legacy.get_book before book_id = None ->
  Legacy.id old = book_id ->
  Legacy.update_book (before ++ old :: after) book_id updated_book
  = (before ++ updated_book :: after, Return updated_book).
Proof.
  intros Hnone Hid. induction before as [|b r IH]; simpl in *.
  - subst book_id. now rewrite Z.eqb_refl.
  - destruct (Legacy.id b =? book_id); [discriminate|].
    now rewrite (IH Hnone).
Qed.

Lemma legacy_delete_book_at before after book_id old :
  Legacy.get_book before book_id = None ->
  Legacy.id old = book_id ->
  Legacy.delete_book (before ++ old :: after) book_id
  = (before ++ after, Return tt).
Proof.
  intros Hnone Hid. induction before as [|b r IH]; simpl in *.
  - subst book_id. now rewrite Z.eqb_refl.
  - destruct (Legacy.id b =? book_id); [discriminate|].
    now rewrite (IH Hnone).
Qed.

Lemma legacy_update_book_missing books book_id updated_book :
  Legacy.get_book books book_id = None ->
  Legacy.update_book books book_id updated_book
  = (books, RaiseHTTP Legacy.book_not_found).
Proof.
  induction books as [|b r IH]; simpl; [reflexivity|].
  destruct (Legacy.id b =? book_id); [discriminate|].
  intros H. now rewrite (IH H).
Qed.

Lemma legacy_delete_book_missing books book_id :
  Legacy.get_book books book_id = None ->
  Legacy.delete_book books book_id
  = (books, RaiseHTTP Legacy.book_not_found).
Proof.
  induction books as [|b r IH]; simpl; [reflexivity|].
  destruct (Legacy.id b =? book_id); [discriminate|].
  intros H. now rewrite (IH H).
Qed.

(** X11: in the list-backed entry point, after [add_book] a lookup by id
    finds the earliest book with that id: the book just added only when
    no book before it has its id, and every other lookup is as before. *)
Theorem legacy_lookup_after_add_finds_the_earliest :
  forall (books : list Legacy.Book) (book : Legacy.Book) (book_id : Z),
    Legacy.get_book (fst (Legacy.add_book books book)) book_id =
    match Legacy.get_book books book_id with
    | Some old => Some old
    | None => if Legacy.id book =? book_id then Some book else None
    end.
Proof.
  intros books book book_id. unfold Legacy.add_book. cbn [fst].
  rewrite legacy_get_book_app. reflexivity.
Qed.

(** X12: [update_book] of the list-backed entry point raises the 404 and
    leaves the list alone when no book has the id; else it puts the body
    where the first book with that id stood, the rest of the list as it
    was. The body's own id is stored as sent: the id then finds the body
    only when the body carries it, else the next book with that id. *)
Theorem legacy_update_book_replaces_the_first_match :
  forall (books : list Legacy.Book) (book_id : Z)
         (updated_book : Legacy.Book),
    match Legacy.get_book books book_id with
    | None =>
        Legacy.update_book books book_id updated_book
        = (books, RaiseHTTP Legacy.book_not_found)
    | Some old =>
        exists before after : list Legacy.Book,
          books = before ++ old :: after
          /\ Legacy.get_book before book_id = None
          /\ Legacy.update_book books book_id updated_book
             = (before ++ updated_book :: after, Return updated_book)
          /\ Legacy.get_book (before ++ updated_book :: after) book_id
             = (if Legacy.id updated_book =? book_id
                then Some updated_book
                else Legacy.get_book after book_id)
    end.
Proof.
  intros books book_id updated_book.
  destruct (Legacy.get_book books book_id) as [old|] eqn:Hget.
  - destruct (legacy_get_book_split _ _ Hget)
      as (before & after & -> & Hnone & Hid).
    exists before, after. repeat split; try assumption.
    + now apply legacy_update_book_at.
    + rewrite legacy_get_book_app, Hnone. reflexivity.
  - now apply legacy_update_book_missing.
Qed.

(** X13: [delete_book] of the list-backed entry point raises the 404 and
    leaves the list alone when no book has the id; else it removes the
    first book with that id and no other, so that a later book with the
    same id is what the id finds next. *)
Theorem legacy_delete_book_removes_the_first_match :
  forall (books : list Legacy.Book) (book_id : Z),
    match Legacy.get_book books book_id with
    | None =>
        Legacy.delete_book books book_id
        = (books, RaiseHTTP Legacy.book_not_found)
    | Some old =>
        exists before after : list Legacy.Book,
          books = before ++ old :: after
          /\ Legacy.get_book before book_id = None
          /\ Legacy.delete_book books book_id = (before ++ after, Return tt)
          /\ Legacy.get_book (before ++ after) book_id
             = Legacy.get_book after book_id
    end.
Proof.
  intros books book_id.
  destruct (Legacy.get_book books book_id) as [old|] eqn:Hget.
  - destruct (legacy_get_book_split _ _ Hget)
      as (before & after & -> & Hnone & Hid).
    exists before, after. repeat split; try assumption.
    + now apply legacy_delete_book_at.
    + rewrite legacy_get_book_app, Hnone. reflexivity.
  - now apply legacy_delete_book_missing.
Qed.

(** * The route handlers *)

Lemma dict_del_set_absent (V : Type) (k : Z) (v : V) (d : dict V) :
  dict_contains k d = false -> dict_del k (dict_set k v d) = d.
Proof.
  induction d as [|[k' v'] r IH]; simpl.
  - now rewrite Z.eqb_refl.
  - destruct (Z.eqb_spec k k') as [->|Hne]; [discriminate|]. simpl.
    destruct (Z.eqb_spec k k'); [contradiction|].
    intros H. now rewrite (IH H).
Qed.

(** X14: for every state, id and patch, each of the handlers [get_book],
    [update_book] and [delete_book] raises exactly when the store has no
    record with the id; what it raises is the [HTTPException] with status
    404 and the detail that names the id, which the exception handler of
    the application turns into a response with that status and detail;
    and the store is then as it was. *)
Theorem routes_raise_404_exactly_when_missing :
  forall (db : BookDatabase) (book_id : Z) (patch : BookUpdate.t),
    (exists_ db book_id = false <->
       snd (Routes.get_book db book_id)
       = RaiseHTTP (Routes.not_found book_id))
    /\ (exists_ db book_id = false <->
          snd (Routes.update_book db book_id patch)
          = RaiseHTTP (Routes.not_found book_id))
    /\ (exists_ db book_id = false <->
          snd (Routes.delete_book db book_id)
          = RaiseHTTP (Routes.not_found book_id))
    /\ (exists_ db book_id = false ->
          fst (Routes.get_book db book_id) = db
          /\ fst (Routes.update_book db book_id patch) = db
          /\ fst (Routes.delete_book db book_id) = db)
    /\ http_exception_handler (Routes.not_found book_id)
       = JSONResponse.Build 404
           ("Book with id " ++ str_int book_id ++ " not found").
Proof.
  intros db book_id patch.
  unfold exists_, Routes.get_book, Routes.update_book, Routes.delete_book,
    update, delete, get_by_id.
  rewrite dict_contains_get.
  destruct (dict_get book_id (_books db)) as [b|]; cbn [fst snd].
  - repeat split; discriminate.
  - repeat split; reflexivity.
Qed.

(** X15: through the handlers, in a state reached from an empty store and
    for a valid body: [create_book] returns a record with the counter's
    value as id; [get_book] on that id returns the record; [delete_book]
    returns; [get_book] then raises the 404; and the mapping is the one
    before the create, with the counter one further. *)
Theorem routes_create_get_delete_get :
  forall (db : BookDatabase) (book : BookCreate.t),
    reachable db ->
    BookCreate.valid book = true ->
    exists (r : Book.t) (db1 db2 : BookDatabase),
      Routes.create_book db book = (db1, Return r)
      /\ Book.id r = _next_id db
      /\ Routes.get_book db1 (Book.id r) = (db1, Return r)
      /\ Routes.delete_book db1 (Book.id r) = (db2, Return tt)
      /\ Routes.get_book db2 (Book.id r)
         = (db2, RaiseHTTP (Routes.not_found (Book.id r)))
      /\ _books db2 = _books db
      /\ _next_id db2 = _next_id db + 1.
Proof.
  intros db book Hreach Hvalid.
  apply reachable_store_inv in Hreach.
  pose proof (store_inv_fresh Hreach) as Hfresh.
  assert (Hnone : dict_get (_next_id db) (_books db) = None).
  { rewrite dict_contains_get in Hfresh.
    now destruct (dict_get (_next_id db) (_books db)). }
  unfold Routes.create_book. rewrite create_spec, Hvalid. cbv zeta.
  eexists. eexists. exists {| _books := _books db;
                              _next_id := _next_id db + 1 |}.
  split; [reflexivity|]. cbn [Book.id].
  split; [reflexivity|].
  unfold Routes.get_book, Routes.delete_book, get_by_id, delete.
  cbn [_books _next_id].
  rewrite dict_get_set_same, dict_contains_get, dict_get_set_same.
  rewrite dict_del_set_absent by exact Hfresh. rewrite Hnone.
  repeat split.
Qed.

(** X16: what [update_book] returns is what [get_book] on that id
    returns next, in every state. *)
Theorem routes_update_then_get :
  forall (db db' : BookDatabase) (book_id : Z) (patch : BookUpdate.t)
         (b : Book.t),
    Routes.update_book db book_id patch = (db', Return b) ->
    Routes.get_book db' book_id = (db', Return b).
Proof.
  intros db db' book_id patch b.
  unfold Routes.update_book, Routes.get_book, update, get_by_id.
  destruct (dict_get book_id (_books db)) as [old|]; [|discriminate].
  intros [= <- <-]. cbn [_books]. now rewrite dict_get_set_same.
Qed.

(** * Deleted for good *)

(** X17: once [delete(id)] has returned [True] in a state reached from an
    empty store, no later sequence of calls brings the id back:
    [exists(id)] is false and [get_by_id(id)] gives [None] after it. *)
Theorem deleted_id_never_comes_back :
  forall (ops later : list Op) (book_id : Z),
    let self := state_after __init__ ops in
    snd (delete self book_id) = true ->
    let self' := state_after (fst (delete self book_id)) later in
    exists_ self' book_id = false /\ get_by_id self' book_id = None.
Proof.
  intros ops later book_id self Hdel self'.
  assert (Hinv : store_inv self) by (apply store_inv_run, store_inv_init).
  assert (Hgone : exists_ self' book_id = false).
  { subst self'. unfold exists_. unfold delete in *.
    destruct (dict_contains book_id (_books self)) eqn:Hc; [|discriminate].
    cbn [fst]. apply retired_id_stays_out.
    - apply (store_inv_call (Delete book_id)) in Hinv.
      simpl in Hinv. unfold delete in Hinv. now rewrite Hc in Hinv.
    - cbn [_next_id]. now apply store_inv_key_below.
    - cbn [_books]. apply dict_contains_del. apply Hinv. }
  split; [exact Hgone|].
  unfold exists_ in Hgone. rewrite dict_contains_get in Hgone.
  unfold get_by_id. now destruct (dict_get book_id (_books self')).
Qed.

(** * Instances of the further properties *)

Lemma one_book_reachable : reachable one_book.
Proof. now exists [Create dune]. Qed.

(** A second create on the store with one book. *)
Lemma create_appends_a_fresh_record_witness :
  snd (create one_book dune)
  = Ok (Book.Build 2 (Some "Dune"%string) (Some "Frank Herbert"%string)
          (Some 15.0%float) (Some true))
  /\ exists_ one_book 2 = false
  /\ get_all (fst (create one_book dune))
     = get_all one_book
       ++ [Book.Build 2 (Some "Dune"%string) (Some "Frank Herbert"%string)
             (Some 15.0%float) (Some true)]
  /\ count (fst (create one_book dune)) = count one_book + 1
  /\ (forall other : Z, other <> 2 ->
        get_by_id (fst (create one_book dune)) other
        = get_by_id one_book other).
Proof.
  exact (create_appends_a_fresh_record dune one_book_reachable eq_refl).
Defined.

(** Deleting the one book. *)
Lemma delete_keeps_the_other_records_witness :
  get_all (fst (delete one_book 1)) =
  filter (fun b => negb (Book.id b =? 1)) (get_all one_book)
  /\ (forall other : Z, other <> 1 ->
        get_by_id (fst (delete one_book 1)) other
        = get_by_id one_book other)
  /\ _next_id (fst (delete one_book 1)) = _next_id one_book.
Proof.
  exact (delete_keeps_the_other_records 1 one_book_reachable).
Defined.

(** The body [{}] on the one book. *)
Lemma update_with_nothing_set_is_a_read_witness :
  update one_book 1 empty_patch = (one_book, get_by_id one_book 1).
Proof.
  exact (update_with_nothing_set_is_a_read one_book 1 empty_patch eq_refl).
Defined.

(** A create and a patch of the price. *)
Lemma valid_inputs_without_null_keep_constraints_witness :
  forallb Book.field_constraints
    (get_all (state_after __init__ [Create dune; Update 1 price_patch]))
  = true.
Proof.
  apply (valid_inputs_without_null_keep_constraints
           [Create dune; Update 1 price_patch]);
    vm_compute; reflexivity.
Defined.

(** A body without title, then a valid one, on an empty store. *)
Lemma refused_create_still_takes_an_id_witness :
  snd (create __init__ untitled) = Raise ValidationError
  /\ _books (fst (create __init__ untitled)) = _books __init__
  /\ exists r : Book.t,
       snd (create (fst (create __init__ untitled)) dune) = Ok r
       /\ Book.id r = _next_id __init__ + 1.
Proof.
  apply (refused_create_still_takes_an_id __init__ untitled dune);
    vm_compute; reflexivity.
Defined.

(** All four fields of the one book replaced. *)
Lemma full_update_is_a_replacement_witness :
  exists r : Book.t,
    Book.new 1 dune = Ok r
    /\ snd (update one_book 1 (full_patch dune)) = Some r
    /\ get_by_id (fst (update one_book 1 (full_patch dune))) 1 = Some r.
Proof.
  apply (full_update_is_a_replacement 1 dune one_book_reachable);
    vm_compute; reflexivity.
Defined.

(** The four requests on the store with one book. *)
Lemma routes_create_get_delete_get_witness :
  exists (r : Book.t) (db1 db2 : BookDatabase),
    Routes.create_book one_book dune = (db1, Return r)
    /\ Book.id r = _next_id one_book
    /\ Routes.get_book db1 (Book.id r) = (db1, Return r)
    /\ Routes.delete_book db1 (Book.id r) = (db2, Return tt)
    /\ Routes.get_book db2 (Book.id r)
       = (db2, RaiseHTTP (Routes.not_found (Book.id r)))
    /\ _books db2 = _books one_book
    /\ _next_id db2 = _next_id one_book + 1.
Proof.
  apply (routes_create_get_delete_get dune one_book_reachable).
  vm_compute. reflexivity.
Defined.

(** A patch of the price of the one book, read back. *)
Lemma routes_update_then_get_witness :
  Routes.get_book (fst (update one_book 1 price_patch)) 1
  = (fst (update one_book 1 price_patch),
     Return (Book.Build 1 (Some "Dune"%string)
               (Some "Frank Herbert"%string) (Some 19.99%float)
               (Some true))).
Proof.
  apply (routes_update_then_get one_book 1 price_patch).
  vm_compute. reflexivity.
Defined.

(** The one book deleted, then two more creates and a patch on its id. *)
Lemma deleted_id_never_comes_back_witness :
  exists_
    (state_after (fst (delete (state_after __init__ [Create dune]) 1))
       [Create dune; Update 1 price_patch; Create dune]) 1 = false
  /\ get_by_id
       (state_after (fst (delete (state_after __init__ [Create dune]) 1))
          [Create dune; Update 1 price_patch; Create dune]) 1 = None.
Proof.
  apply (deleted_id_never_comes_back [Create dune]
           [Create dune; Update 1 price_patch; Create dune] 1).
  vm_compute. reflexivity.
Defined.
